(** * go-callvis: the command-line entry point and its HTTP control loop

    A model of [main.go]: the registered flags, [outputDot], the two
    handlers installed by [ginServer], and [main].  The program runs three
    kinds of goroutines (main, the gin server, one [outputDot] per
    [/module] request); they are interleaved by a step function on an
    explicit process state.  Everything that [main.go] calls but does not
    define (the [analysis] type with its methods, [dotToImage], the file
    system) is an interface, [Externals].  [handleServer], with
    [parseHTTPAddr] and [openBrowser] behind it, is called from nowhere
    and is left out. *)

From stdpp Require Import base strings list gmap.
From Stdlib Require Import ZArith Floats Ascii.

#[local] Set Warnings "-inexact-float".
#[local] Open Scope string_scope.

(** ** The flag set *)

(** A value held by a registered flag: [flag.String], [flag.Bool],
    [flag.UintVar], [flag.Float64Var], and the build tags of [flag.Var]. *)
Inductive flagValue :=
| VString (s : string)
| VBool (b : bool)
| VUint (n : N)
| VFloat64 (f : float)
| VTags (ts : list string).

(** [flag.CommandLine]: flag name to current value. *)
Abbreviation FlagSet := (gmap string flagValue).

(** The [var ( ... )] block, lines 34-52, in declaration order. *)
Definition var_block : list (string * flagValue) :=
  [ ("focus", VString "main");
    ("group", VString "pkg");
    ("limit", VString "");
    ("ignore", VString "");
    ("include", VString "");
    ("nostd", VBool true);
    ("nointer", VBool true);
    ("tests", VBool false);
    ("graphviz", VBool false);
    ("http", VString ":7878");
    ("skipbrowser", VBool false);
    ("file", VString "");
    ("format", VString "svg");
    ("cacheDir", VString "");
    ("debug", VBool true);
    ("version", VBool false) ].

(** [init], lines 54-62.  The [tags] flag is bound to
    [build.Default.BuildTags], which starts empty. *)
Definition init_block : list (string * flagValue) :=
  [ ("tags", VTags []);
    ("minlen", VUint 2);
    ("nodesep", VFloat64 0.35);
    ("nodeshape", VString "box");
    ("nodestyle", VString "filled,rounded");
    ("rankdir", VString "LR") ].

Definition register (fs : FlagSet) (d : string * flagValue) : FlagSet :=
  <[d.1 := d.2]> fs.

(** The flag set once package initialisation is over: every flag holds
    its default. *)
Definition CommandLine : FlagSet :=
  foldl register (foldl register ∅ var_block) init_block.

Definition same_kind (v w : flagValue) : bool :=
  match v, w with
  | VString _, VString _ | VBool _, VBool _ | VUint _, VUint _
  | VFloat64 _, VFloat64 _ | VTags _, VTags _ => true
  | _, _ => false
  end.

(** What [flag.Parse] can end with when it does not succeed; the flag set
    is created with [flag.ExitOnError]. *)
Inductive parseError :=
| ErrHelp                (* -h or -help, not registered: exit status 0 *)
| ErrBadFlag.            (* unknown flag or ill-typed value: exit status 2 *)

(** [FlagSet.Set]: the flag must exist and the value must be of its kind. *)
Definition flag_Set (fs : FlagSet) (name : string) (v : flagValue)
  : parseError + FlagSet :=
  match fs !! name with
  | Some old => if same_kind old v then inr (<[name := v]> fs) else inl ErrBadFlag
  | None =>
      if bool_decide (name = "help" ∨ name = "h") then inl ErrHelp
      else inl ErrBadFlag
  end.

(** The command line as [flag.Parse] reads it: the [-name=value] settings
    in the order given, values already converted to the kind of the flag
    they are meant for, then the positional arguments. *)
Record cmdline := CmdLine {
  settings : list (string * flagValue);
  positional : list string
}.

Fixpoint flag_Parse (ss : list (string * flagValue)) (fs : FlagSet)
  : parseError + FlagSet :=
  match ss with
  | [] => inr fs
  | (name, v) :: rest =>
      match flag_Set fs name v with
      | inr fs' => flag_Parse rest fs'
      | inl e => inl e
      end
  end.

(** Reading a flag variable: [*focusFlag], [minlen], ... *)
Definition flagString (fs : FlagSet) (name : string) : string :=
  match fs !! name with Some (VString s) => s | _ => "" end.
Definition flagBool (fs : FlagSet) (name : string) : bool :=
  match fs !! name with Some (VBool b) => b | _ => false end.
Definition flagUint (fs : FlagSet) (name : string) : N :=
  match fs !! name with Some (VUint n) => n | _ => 0%N end.
Definition flagFloat64 (fs : FlagSet) (name : string) : float :=
  match fs !! name with Some (VFloat64 f) => f | _ => 0%float end.

Definition focusFlag fs := flagString fs "focus".
Definition groupFlag fs := flagString fs "group".
Definition limitFlag fs := flagString fs "limit".
Definition ignoreFlag fs := flagString fs "ignore".
Definition includeFlag fs := flagString fs "include".
Definition nostdFlag fs := flagBool fs "nostd".
Definition nointerFlag fs := flagBool fs "nointer".
Definition testFlag fs := flagBool fs "tests".
Definition outputFormat fs := flagString fs "format".
Definition debugFlag fs := flagBool fs "debug".
Definition versionFlag fs := flagBool fs "version".
Definition minlen fs := flagUint fs "minlen".
Definition nodesep fs := flagFloat64 fs "nodesep".
Definition nodeshape fs := flagString fs "nodeshape".
Definition nodestyle fs := flagString fs "nodestyle".
Definition rankdir fs := flagString fs "rankdir".

(** [flag.NArg()] *)
Definition NArg (c : cmdline) : nat := length (positional c).

(** ** What [main.go] uses and does not define *)

Definition bytes := list Byte.byte.

(** A Go [error], as the text of its [Error()] method. *)
Definition error := string.

(** The part of [*http.Request] that the handlers and the router read. *)
Record request := Request {
  method : string;
  path : string;
  form : list (string * string)
}.

(** [Request.FormValue]: the first value of the key, or the empty string. *)
Fixpoint first_value (key : string) (kvs : list (string * string)) : string :=
  match kvs with
  | [] => ""
  | (k, v) :: rest => if bool_decide (k = key) then v else first_value key rest
  end.

Definition FormValue (r : request) (key : string) : string :=
  first_value key (form r).

(** The [analysis] struct and its methods, [dotToImage], [Version], the
    file system behind [ioutil.WriteFile] and the port behind [r.Run] are
    declared outside [main.go].  Methods take the struct the [Analysis]
    pointer refers to and give back its new contents; the functions that
    can read the flag variables or touch the outside world receive them.
    Each is taken to return to its caller. *)
Class Externals := {
  analysis : Type;
  world : Type;
  new_analysis : analysis;
  Version : string;
  OptsSetup : FlagSet → analysis → analysis;
  OverrideByHTTP : request → analysis → analysis;
  UpdateOptUnMarshal : string → analysis → analysis;
  GetOptMarshal : analysis → string;
  DoAnalysis : string → bool → list string → world → analysis →
               analysis * option error;
  ProcessListArgs : analysis → analysis * option error;
  Render : FlagSet → analysis → analysis * (error + bytes);
  dotToImage : string → string → bytes → FlagSet → world →
               world * (error + string);
  WriteFile : string → bytes → Z → world → world * option error;
  Listen : string → world → bool
}.

(** ** Process state *)

Inductive status := Running | Exited (code : Z).

(** Where a call of [outputDot] stands: before line 94, before line 98,
    before line 103 and before line 110 (the last two hold the local
    [output]), and after its last line. *)
Inductive odotPC :=
| OdProcessListArgs
| OdRender
| OdWriteFile (output : bytes)
| OdDotToImage (output : bytes)
| OdReturn.

(** Where [main] stands: line 148, lines 150-164, lines 166-171,
    lines 173-175, inside the call of line 177, in the sleep of line 178,
    and at its closing brace. *)
Inductive mainPC :=
| MGoServer
| MParse
| MSetup
| MDoAnalysis
| MOutputDot (pc : odotPC)
| MSleep
| MReturn.

(** The goroutine of [go ginServer()]: not created, created and on its way
    to [r.Run], blocked in [r.Run] serving requests, or returned because
    [r.Run] could not listen (its error is dropped at line 143). *)
Inductive serverState := SrvNone | SrvStarting | SrvListening | SrvReturned.

(** A goroutine created by [go outputDot(fname, outputFormat)]. *)
Record task := Task {
  t_fname : string;
  t_format : string;
  t_pc : odotPC
}.

Inductive response :=
| RString (code : Z) (body : string)          (* c.String *)
| RRedirect (code : Z) (location : string)    (* c.Redirect *)
| RStatic (filepath : string)                 (* the file server of line 120 *)
| RNotFound.

Inductive stage :=
| StDoAnalysis | StProcessListArgs | StRender | StWriteFile | StDotToImage.

(** What the process does that can be seen from outside, and the pipeline
    stages it enters. *)
Inductive event :=
| EStderr (s : string)
| EPrintDefaults
| ELogSetFlags (f : Z)
| ELogPrint (s : string)
| ELogPrintln (s : string)
| ELogPrintf (format : string) (args : list string)
| EStage (st : stage)
| EResponse (r : response)
| ESleep (d : Z)
| EExit (code : Z).

#[global] Instance status_eq_dec : EqDecision status.
Proof. solve_decision. Defined.
#[global] Instance stage_eq_dec : EqDecision stage.
Proof. solve_decision. Defined.

(** How often a stage was entered. *)
Definition enters (st : stage) (e : event) : bool :=
  match e with
  | EStage st' => bool_decide (st' = st)
  | _ => false
  end.

Definition entries (st : stage) (tr : list event) : nat :=
  length (List.filter (enters st) tr).

(** Constants of the Go standard library used by [main.go]. *)
Definition StatusOK : Z := 200.
Definition StatusMovedPermanently : Z := 301.
Definition Lmicroseconds : Z := 4.
Definition Millisecond : Z := 1000000.
Definition Hour : Z := 60 * (60 * (1000 * Millisecond)).

Definition Usage : string :=
"go-callvis: visualize call graph of a Go program.

Usage:

  go-callvis [flags] package

  Package should be main package, otherwise -tests flag must be used.

Flags:

".

Section Process.
Context `{Ext : Externals}.

(** The whole process: exit status, command line, the package-level
    variables ([flag.CommandLine] and the [Analysis] pointer, [None] when
    nil), the outside world, the three kinds of goroutines, and the events
    so far, newest first. *)
Record proc := Proc {
  status_of : status;
  os_Args : cmdline;
  flags : FlagSet;
  Analysis : option analysis;
  wld : world;
  main_pc : mainPC;
  server : serverState;
  tasks : list task;
  trace : list event
}.

Definition set_status (x : status) (s : proc) : proc :=
  Proc x (os_Args s) (flags s) (Analysis s) (wld s) (main_pc s) (server s)
       (tasks s) (trace s).
Definition set_flags (x : FlagSet) (s : proc) : proc :=
  Proc (status_of s) (os_Args s) x (Analysis s) (wld s) (main_pc s) (server s)
       (tasks s) (trace s).
Definition set_Analysis (x : option analysis) (s : proc) : proc :=
  Proc (status_of s) (os_Args s) (flags s) x (wld s) (main_pc s) (server s)
       (tasks s) (trace s).
Definition set_wld (x : world) (s : proc) : proc :=
  Proc (status_of s) (os_Args s) (flags s) (Analysis s) x (main_pc s) (server s)
       (tasks s) (trace s).
Definition set_main_pc (x : mainPC) (s : proc) : proc :=
  Proc (status_of s) (os_Args s) (flags s) (Analysis s) (wld s) x (server s)
       (tasks s) (trace s).
Definition set_server (x : serverState) (s : proc) : proc :=
  Proc (status_of s) (os_Args s) (flags s) (Analysis s) (wld s) (main_pc s) x
       (tasks s) (trace s).
Definition set_tasks (x : list task) (s : proc) : proc :=
  Proc (status_of s) (os_Args s) (flags s) (Analysis s) (wld s) (main_pc s)
       (server s) x (trace s).
Definition set_trace (x : list event) (s : proc) : proc :=
  Proc (status_of s) (os_Args s) (flags s) (Analysis s) (wld s) (main_pc s)
       (server s) (tasks s) x.

(** ** A monad for the statements of one goroutine

    A block of statements either falls through with a value, or ends the
    process through [os.Exit], or calls a method on [Analysis] while the
    pointer is nil; what the method does with a nil receiver is decided
    where the method is declared, so the model stops there. *)
Inductive result (A : Type) :=
| Done (a : A) (s : proc)
| Halt (s : proc)
| NilReceiver.
Arguments Done {A} a s.
Arguments Halt {A} s.
Arguments NilReceiver {A}.

Definition M (A : Type) : Type := proc → result A.

Definition ret {A} (a : A) : M A := λ s, Done a s.

Definition bind {A B} (m : M A) (k : A → M B) : M B :=
  λ s, match m s with
       | Done a s' => k a s'
       | Halt s' => Halt s'
       | NilReceiver => NilReceiver
       end.

Notation "x <- m ;; k" := (bind m (λ x, k))
  (at level 100, m at next level, right associativity).
Notation "m ;;; k" := (bind m (λ _, k))
  (at level 100, right associativity).

Definition gets {A} (f : proc → A) : M A := λ s, Done (f s) s.
Definition modify (f : proc → proc) : M unit := λ s, Done tt (f s).
Definition emit (e : event) : M unit := modify (λ s, set_trace (e :: trace s) s).

Definition os_Exit {A} (code : Z) : M A :=
  λ s, Halt (set_status (Exited code) (set_trace (EExit code :: trace s) s)).

Definition log_Printf (format : string) (args : list string) : M unit :=
  emit (ELogPrintf format args).
Definition log_Println (msg : string) : M unit := emit (ELogPrintln msg).
Definition log_Fatalf {A} (format : string) (args : list string) : M A :=
  log_Printf format args ;;; os_Exit 1.
Definition log_Fatal {A} (e : error) : M A :=
  emit (ELogPrint e) ;;; os_Exit 1.

(** [logf], lines 64-68. *)
Definition logf (f : string) (a : list string) : M unit :=
  fs <- gets flags ;;
  if debugFlag fs then log_Printf f a else ret tt.

(** A method call [Analysis.m(...)]: [m] maps the struct to its new
    contents and a value. *)
Definition on_Analysis {A} (m : analysis → analysis * A) : M A :=
  λ s, match Analysis s with
       | Some a => let (a', x) := m a in Done x (set_Analysis (Some a') s)
       | None => NilReceiver
       end.

Definition on_world {A} (f : world → world * A) : M A :=
  λ s, let (w', x) := f (wld s) in Done x (set_wld w' s).

(** ** [outputDot], lines 92-116, one stage at a time *)

Definition outputDot_step (fname outputFormat : string) (pc : odotPC)
  : M odotPC :=
  match pc with
  | OdProcessListArgs =>
      emit (EStage StProcessListArgs) ;;;
      e <- on_Analysis ProcessListArgs ;;
      match e with
      | Some e => log_Fatalf "%v
" [e]
      | None => ret OdRender
      end
  | OdRender =>
      emit (EStage StRender) ;;;
      fs <- gets flags ;;
      r <- on_Analysis (Render fs) ;;
      match r with
      | inl err => log_Fatalf "%v
" [err]
      | inr output => ret (OdWriteFile output)
      end
  | OdWriteFile output =>
      log_Println "writing dot output.." ;;;
      emit (EStage StWriteFile) ;;;
      writeErr <- on_world (WriteFile (fname ++ ".gv") output 493) ;;
      match writeErr with
      | Some e => log_Fatalf "%v
" [e]
      | None => ret (OdDotToImage output)
      end
  | OdDotToImage output =>
      log_Printf "converting dot to %s..
" [outputFormat] ;;;
      emit (EStage StDotToImage) ;;;
      fs <- gets flags ;;
      r <- on_world (dotToImage fname outputFormat output fs) ;;
      match r with
      | inl err => log_Fatalf "%v
" [err]
      | inr _ => ret OdReturn
      end
  | OdReturn => ret OdReturn
  end.

(** The whole call, for a caller that is not interrupted. *)
Fixpoint outputDot_from (n : nat) (fname outputFormat : string) (pc : odotPC)
  : M unit :=
  match n with
  | O => ret tt
  | S n =>
      pc' <- outputDot_step fname outputFormat pc ;;
      outputDot_from n fname outputFormat pc'
  end.

Definition outputDot (fname outputFormat : string) : M unit :=
  outputDot_from 4 fname outputFormat OdProcessListArgs.

(** ** [ginServer], lines 118-144 *)

(** The [go] statement of line 138. *)
Definition go_outputDot (fname outputFormat : string) : M unit :=
  modify (λ s, set_tasks (tasks s ++ [Task fname outputFormat OdProcessListArgs]) s).

(** The handler of [/options], lines 121-129. *)
Definition handle_options (req : request) : M response :=
  let updateOpts := FormValue req "opts" in
  (if bool_decide (0 < String.length updateOpts)%nat then
     logf updateOpts [] ;;;
     on_Analysis (λ a, (UpdateOptUnMarshal updateOpts a, tt))
   else ret tt) ;;;
  opts <- on_Analysis (λ a, (a, GetOptMarshal a)) ;;
  ret (RString StatusOK opts).

(** The handler of [/module], lines 130-141. *)
Definition handle_module (req : request) : M response :=
  fs <- gets flags ;;
  on_Analysis (λ a, (OptsSetup fs a, tt)) ;;;
  on_Analysis (λ a, (OverrideByHTTP req a, tt)) ;;;
  go_outputDot "./static/data/go-callvis_export" "dot" ;;;
  ret (RRedirect StatusMovedPermanently "http://localhost:8000/root/test.html").

Inductive route :=
| RouteOptions | RouteModule | RouteStatic (filepath : string) | RouteNone.

(** The routes registered at lines 120, 121 and 130, matched on the exact
    path (gin's redirect of a trailing slash is left out). *)
Definition router (req : request) : route :=
  if bool_decide (method req = "GET" ∧ path req = "/options") then RouteOptions
  else if bool_decide (method req = "GET" ∧ path req = "/module") then RouteModule
  else if bool_decide (method req = "GET" ∨ method req = "HEAD") &&
          String.prefix "/root/" (path req)
       then RouteStatic (String.substring 5 (String.length (path req) - 5) (path req))
  else RouteNone.

Definition serve (req : request) : M response :=
  match router req with
  | RouteOptions => handle_options req
  | RouteModule => handle_module req
  | RouteStatic fp => ret (RStatic fp)
  | RouteNone => ret RNotFound
  end.

(** The body of [ginServer] up to [r.Run(":8000")], which either blocks
    serving or returns at once. *)
Definition ginServer : M unit :=
  w <- gets wld ;;
  modify (set_server (if Listen ":8000" w then SrvListening else SrvReturned)).

(** ** [main], lines 147-179 *)

Definition main_step (pc : mainPC) : M mainPC :=
  match pc with
  | MGoServer =>
      modify (set_server SrvStarting) ;;;
      ret MParse
  | MParse =>
      c <- gets os_Args ;;
      fs0 <- gets flags ;;
      match flag_Parse (settings c) fs0 with
      | inl ErrHelp => os_Exit 0
      | inl ErrBadFlag => os_Exit 2
      | inr fs =>
          modify (set_flags fs) ;;;
          (if versionFlag fs then
             emit (EStderr (Version ++ "
")) ;;; os_Exit 0
           else ret tt) ;;;
          (if debugFlag fs then emit (ELogSetFlags Lmicroseconds) else ret tt) ;;;
          if bool_decide (NArg c ≠ 1%nat) then
            emit (EStderr Usage) ;;;
            emit EPrintDefaults ;;;
            os_Exit 2
          else ret MSetup
      end
  | MSetup =>
      fs <- gets flags ;;
      modify (set_Analysis (Some new_analysis)) ;;;
      on_Analysis (λ a, (OptsSetup fs a, tt)) ;;;
      ret MDoAnalysis
  | MDoAnalysis =>
      c <- gets os_Args ;;
      fs <- gets flags ;;
      w <- gets wld ;;
      emit (EStage StDoAnalysis) ;;;
      err <- on_Analysis (DoAnalysis "./" (testFlag fs) (positional c) w) ;;
      match err with
      | Some e => log_Fatal e
      | None => ret (MOutputDot OdProcessListArgs)
      end
  | MOutputDot pc =>
      pc' <- outputDot_step "./static/data/go-callvis_export" "dot" pc ;;
      ret (match pc' with OdReturn => MSleep | _ => MOutputDot pc' end)
  | MSleep =>
      emit (ESleep Hour) ;;;
      ret MReturn
  | MReturn => os_Exit 0
  end.

(** ** Interleaving *)

(** One step of the process: the main goroutine moves, the server
    goroutine reaches [r.Run], the server answers a request, or the
    [i]-th [outputDot] goroutine moves. *)
Inductive action :=
| AMain
| AServer
| ARequest (req : request)
| ATask (i : nat).

Definition settle {A} (r : result A) (k : A → proc → proc) : option proc :=
  match r with
  | Done a s => Some (k a s)
  | Halt s => Some s
  | NilReceiver => None
  end.

Definition step (a : action) (s : proc) : option proc :=
  match status_of s with
  | Exited _ => None
  | Running =>
      match a with
      | AMain => settle (main_step (main_pc s) s) set_main_pc
      | AServer =>
          match server s with
          | SrvStarting => settle (ginServer s) (λ _ s', s')
          | _ => None
          end
      | ARequest req =>
          match server s with
          | SrvListening =>
              settle (serve req s) (λ r s', set_trace (EResponse r :: trace s') s')
          | _ => None
          end
      | ATask i =>
          match tasks s !! i with
          | Some (Task fname format OdReturn) => None
          | Some (Task fname format pc) =>
              settle (outputDot_step fname format pc s)
                     (λ pc' s', set_tasks (<[i := Task fname format pc']> (tasks s')) s')
          | None => None
          end
      end
  end.

Fixpoint run (acts : list action) (s : proc) : option proc :=
  match acts with
  | [] => Some s
  | a :: rest =>
      match step a s with
      | Some s' => run rest s'
      | None => None
      end
  end.

(** The process as the operating system starts it. *)
Definition start (c : cmdline) (w : world) : proc :=
  Proc Running c CommandLine None w MGoServer SrvNone [] [].

(** ** When a stage fails *)

Definition failed (e : option error) : bool :=
  match e with Some _ => true | None => false end.

Definition is_err {A} (r : error + A) : bool :=
  match r with inl _ => true | inr _ => false end.

(** The stage that a call of [outputDot] standing at [pc] enters next
    returns an error in state [s]. *)
Definition stage_fails (fname outputFormat : string) (pc : odotPC) (s : proc)
  : bool :=
  match pc with
  | OdProcessListArgs =>
      match Analysis s with
      | Some a => failed (ProcessListArgs a).2
      | None => false
      end
  | OdRender =>
      match Analysis s with
      | Some a => is_err (Render (flags s) a).2
      | None => false
      end
  | OdWriteFile output =>
      failed (WriteFile (fname ++ ".gv") output 493 (wld s)).2
  | OdDotToImage output =>
      is_err (dotToImage fname outputFormat output (flags s) (wld s)).2
  | OdReturn => false
  end.

(** The stage that [main] enters next returns an error: [DoAnalysis] at
    line 173, or a stage of the [outputDot] call of line 177. *)
Definition main_stage_fails (s : proc) : bool :=
  match main_pc s with
  | MDoAnalysis =>
      match Analysis s with
      | Some a =>
          failed (DoAnalysis "./" (testFlag (flags s)) (positional (os_Args s))
                             (wld s) a).2
      | None => false
      end
  | MOutputDot pc => stage_fails "./static/data/go-callvis_export" "dot" pc s
  | _ => false
  end.

(** The process can answer requests: it runs, the server is in [r.Run]
    and [main] has allocated [Analysis]. *)
Definition serving (s : proc) : Prop :=
  status_of s = Running ∧ server s = SrvListening ∧ is_Some (Analysis s).

End Process.

Arguments Done {Ext A} a s.
Arguments Halt {Ext A} s.
Arguments NilReceiver {Ext A}.

(** ** A concrete option store and pipeline *)

Module Demo.

(** Modelled from the spec: the [analysis] struct, its methods,
    [dotToImage] and the outside world are missing from the sources at
    hand.  Options are "a flat record of all pipeline-affecting switches
    (focus target, group mode, limit/ignore/include prefix lists, nostd,
    nointer ...)". *)
Record renderOpts := RenderOpts {
  focus : string;
  group : string;
  limit : string;
  ignore : string;
  include : string;
  nostd : bool;
  nointer : bool
}.

(** Modelled from the spec: the store holds "the current Options value"
    next to the graph of the analysed program, here the import path and
    the name of each of its packages. *)
Record analysisT := AnalysisT {
  opts : renderOpts;
  pkgs : list (string * string)
}.

(** Modelled from the spec: the collaborators outside the core, as far as
    the pipeline can tell them apart: the packages that can be loaded,
    the files written so far, whether files can be written, whether the
    layout engine is installed, whether the port is free. *)
Record worldT := WorldT {
  sources : list (string * string);
  files : list (string * bytes);
  writable : bool;
  dot_installed : bool;
  port_free : bool
}.

Definition zero_opts : renderOpts := RenderOpts "" "" "" "" "" false false.

Definition parse_bool (v : string) (old : bool) : bool :=
  if bool_decide (v = "true") then true
  else if bool_decide (v = "false") then false
  else old.

(** Modelled from the spec: "validating and merging only recognized keys -
    unrecognized keys are ignored, not errors".  Keys are the option
    names. *)
Definition merge_key (o : renderOpts) (kv : string * string) : renderOpts :=
  let (k, v) := kv in
  if bool_decide (k = "focus") then
    RenderOpts v (group o) (limit o) (ignore o) (include o) (nostd o) (nointer o)
  else if bool_decide (k = "group") then
    RenderOpts (focus o) v (limit o) (ignore o) (include o) (nostd o) (nointer o)
  else if bool_decide (k = "limit") then
    RenderOpts (focus o) (group o) v (ignore o) (include o) (nostd o) (nointer o)
  else if bool_decide (k = "ignore") then
    RenderOpts (focus o) (group o) (limit o) v (include o) (nostd o) (nointer o)
  else if bool_decide (k = "include") then
    RenderOpts (focus o) (group o) (limit o) (ignore o) v (nostd o) (nointer o)
  else if bool_decide (k = "nostd") then
    RenderOpts (focus o) (group o) (limit o) (ignore o) (include o)
               (parse_bool v (nostd o)) (nointer o)
  else if bool_decide (k = "nointer") then
    RenderOpts (focus o) (group o) (limit o) (ignore o) (include o)
               (nostd o) (parse_bool v (nointer o))
  else o.

(** Modelled from the spec: [OptsSetup] is the call commented "get cmdline
    default for analysis" at each of its call sites: the options become
    what the flags say. *)
Definition cmdline_opts (fs : FlagSet) : renderOpts :=
  RenderOpts (focusFlag fs) (groupFlag fs) (limitFlag fs) (ignoreFlag fs)
             (includeFlag fs) (nostdFlag fs) (nointerFlag fs).

Definition d_OptsSetup (fs : FlagSet) (a : analysisT) : analysisT :=
  AnalysisT (cmdline_opts fs) (pkgs a).

(** Modelled from the spec: [OverrideByHTTP] is "applyOverrides
    (queryParams)": every pair of the request's form is merged in order. *)
Definition d_OverrideByHTTP (req : request) (a : analysisT) : analysisT :=
  AnalysisT (foldl merge_key (opts a) (form req)) (pkgs a).

(** The transport form of the options: [key=value] pairs joined by [&]. *)
Fixpoint split_at (sep : ascii) (s : string) : string * option string :=
  match s with
  | EmptyString => (EmptyString, None)
  | String c rest =>
      if bool_decide (c = sep) then (EmptyString, Some rest)
      else let (h, t) := split_at sep rest in (String c h, t)
  end.

Fixpoint fields (fuel : nat) (sep : ascii) (s : string) : list string :=
  match fuel with
  | O => [s]
  | S fuel =>
      match split_at sep s with
      | (h, None) => [h]
      | (h, Some rest) => h :: fields fuel sep rest
      end
  end.

Definition pair_of (s : string) : string * string :=
  match split_at "="%char s with
  | (k, Some v) => (k, v)
  | (k, None) => (k, "")
  end.

Definition unmarshal (s : string) : list (string * string) :=
  pair_of <$> fields (String.length s) "&"%char s.

Definition show_bool (b : bool) : string := if b then "true" else "false".

(** Modelled from the spec: "serialize()/deserialize(bytes) for
    transport"; [GetOptMarshal] is the former. *)
Definition d_GetOptMarshal (a : analysisT) : string :=
  let o := opts a in
  "focus=" ++ focus o ++ "&group=" ++ group o ++ "&limit=" ++ limit o ++
  "&ignore=" ++ ignore o ++ "&include=" ++ include o ++
  "&nostd=" ++ show_bool (nostd o) ++ "&nointer=" ++ show_bool (nointer o).

(** Modelled from the spec: [UpdateOptUnMarshal] "merges a caller-supplied
    serialized override into the store". *)
Definition d_UpdateOptUnMarshal (s : string) (a : analysisT) : analysisT :=
  AnalysisT (foldl merge_key (opts a) (unmarshal s)) (pkgs a).

Definition known (w : worldT) (p : string) : bool :=
  bool_decide (p ∈ (sources w).*1).

(** Modelled from the spec: the graph model "fails with AnalysisUnavailable
    if the collaborator cannot resolve the requested entry package (e.g.,
    not a main package without the test-mode override)". *)
Definition d_DoAnalysis (dir : string) (tests : bool) (args : list string)
    (w : worldT) (a : analysisT) : analysisT * option error :=
  if negb (forallb (known w) args) then (a, Some "cannot find package")
  else if negb tests &&
          negb (bool_decide (Exists (λ p, p.1 ∈ args ∧ p.2 = "main") (sources w)))
       then (a, Some "no main packages")
  else (AnalysisT (opts a) (sources w), None).

Definition d_ProcessListArgs (a : analysisT) : analysisT * option error :=
  (a, None).

(** Modelled from the spec: "if the named focus target does not exist in
    the graph, fails with FocusNotFound"; the focus is given "by name or
    import path".  The description carries the options it was rendered
    under. *)
Definition d_Render (fs : FlagSet) (a : analysisT)
  : analysisT * (error + bytes) :=
  let f := focus (opts a) in
  if bool_decide (f = "" ∨ Exists (λ p, p.1 = f ∨ p.2 = f) (pkgs a)) then
    (a, inr (String.list_byte_of_string
               ("digraph gocallvis { /* " ++ d_GetOptMarshal a ++
                "&rankdir=" ++ rankdir fs ++ " */ }")))
  else (a, inl ("focus failed: " ++ f)).

(** [ioutil.WriteFile] on the modelled file system. *)
Definition d_WriteFile (name : string) (data : bytes) (perm : Z) (w : worldT)
  : worldT * option error :=
  if writable w then
    (WorldT (sources w) ((name, data) :: files w) (writable w)
            (dot_installed w) (port_free w), None)
  else (w, Some ("open " ++ name ++ ": permission denied")).

(** Modelled from the spec: the converter "fails with RendererUnavailable
    if the external engine is not installed/invocable". *)
Definition d_dotToImage (fname format : string) (dot : bytes) (fs : FlagSet)
    (w : worldT) : worldT * (error + string) :=
  if dot_installed w then
    let img := fname ++ "." ++ format in
    (WorldT (sources w) ((img, dot) :: files w) (writable w)
            (dot_installed w) (port_free w), inr img)
  else (w, inl "exec: dot: executable file not found in $PATH").

#[export] Instance ext : Externals := {|
  analysis := analysisT;
  world := worldT;
  new_analysis := AnalysisT zero_opts [];
  Version := "dev";
  OptsSetup := d_OptsSetup;
  OverrideByHTTP := d_OverrideByHTTP;
  UpdateOptUnMarshal := d_UpdateOptUnMarshal;
  GetOptMarshal := d_GetOptMarshal;
  DoAnalysis := d_DoAnalysis;
  ProcessListArgs := d_ProcessListArgs;
  Render := d_Render;
  dotToImage := d_dotToImage;
  WriteFile := d_WriteFile;
  Listen := λ _ w, port_free w
|}.

(** A machine with the program [app] (package main) and its library
    [app/lib], a writable disk, the layout engine and a free port. *)
Definition machine : worldT :=
  WorldT [("app", "main"); ("app/lib", "lib")] [] true true true.

Definition GET (p : string) (q : list (string * string)) : request :=
  Request "GET" p q.

(** [go-callvis app] up to the sleep of [main], the server started first. *)
Definition boot : list action :=
  [AMain; AServer; AMain; AMain; AMain; AMain; AMain; AMain; AMain].

(** The same machine without the layout engine. *)
Definition machine_without_dot : worldT :=
  WorldT [("app", "main"); ("app/lib", "lib")] [] true false true.

(** The state a schedule leads to from the start of the process (the
    start itself if the schedule cannot be followed). *)
Definition trail (c : cmdline) (w : worldT) (acts : list action) : proc :=
  default (start c w) (run acts (start c w)).

(** The command line [go-callvis app] on [machine]. *)
Definition init : proc := start (CmdLine [] ["app"]) machine.

Definition after (acts : list action) : proc :=
  trail (CmdLine [] ["app"]) machine acts.

(** [main] asleep after a successful start-up run, the server listening. *)
Definition booted : proc := after boot.


(** A render trigger naming a focus that is not in the graph, and the two
    steps of its run up to the failing render stage. *)
Definition to_failure : list action :=
  (boot ++ [ARequest (GET "/module" [("focus", "nosuch")]); ATask 0; ATask 0])%list.

(** A machine on which port 8000 is taken. *)
Definition machine_port_taken : worldT :=
  WorldT [("app", "main"); ("app/lib", "lib")] [] true true false.

End Demo.


(** ** [parseHTTPAddr], lines 70-83 *)

(** [net.SplitHostPort] of the Go standard library, whose error
    [parseHTTPAddr] drops.  An index of [-1] is [None]. *)
Module Net.

Fixpoint IndexByte (s : string) (c : ascii) : option nat :=
  match s with
  | EmptyString => None
  | String x rest =>
      if bool_decide (x = c) then Some O else S <$> IndexByte rest c
  end.

Fixpoint LastIndexByte (s : string) (c : ascii) : option nat :=
  match s with
  | EmptyString => None
  | String x rest =>
      match LastIndexByte rest c with
      | Some i => Some (S i)
      | None => if bool_decide (x = c) then Some O else None
      end
  end.

(** The slices [s[:i]] and [s[i:]]. *)
Definition upto (i : nat) (s : string) : string := String.substring 0 i s.
Definition from (i : nat) (s : string) : string :=
  String.substring i (String.length s - i) s.

(** [(&AddrError{Err: why, Addr: addr}).Error()] *)
Definition addrErr (addr why : string) : string * string * option error :=
  ("", "",
   Some (if bool_decide (addr = "") then why
         else "address " ++ addr ++ ": " ++ why)).

Definition missingPort : string := "missing port in address".
Definition tooManyColons : string := "too many colons in address".

(** The end of [SplitHostPort], once [host] and the offsets [j] and [k]
    are known; [i] is the index of the last colon. *)
Definition split_tail (hostport host : string) (i j k : nat)
  : string * string * option error :=
  if bool_decide (is_Some (IndexByte (from j hostport) "["%char)) then
    addrErr hostport "unexpected '[' in address"
  else if bool_decide (is_Some (IndexByte (from k hostport) "]"%char)) then
    addrErr hostport "unexpected ']' in address"
  else (host, from (S i) hostport, None).

Definition SplitHostPort (hostport : string) : string * string * option error :=
  match LastIndexByte hostport ":"%char with
  | None => addrErr hostport missingPort
  | Some i =>
      if bool_decide (String.get 0 hostport = Some "["%char) then
        match IndexByte hostport "]"%char with
        | None => addrErr hostport "missing ']' in address"
        | Some e =>
            if bool_decide (S e = String.length hostport) then
              addrErr hostport missingPort
            else if bool_decide (S e = i) then
              split_tail hostport (String.substring 1 (e - 1) hostport) i 1 (S e)
            else if bool_decide (String.get (S e) hostport = Some ":"%char) then
              addrErr hostport tooManyColons
            else addrErr hostport missingPort
        end
      else
        let host := upto i hostport in
        if bool_decide (is_Some (IndexByte host ":"%char)) then
          addrErr hostport tooManyColons
        else split_tail hostport host i 0 0
  end.

End Net.

Section HTTPAddr.

(** The [String] method of [url.URL] escapes the host with a table of the
    standard library, taken here as given. *)
Variable escape : string → string.

(** [url.URL{Scheme: scheme, Host: host}.String()] *)
Definition URL_String (scheme host : string) : string :=
  (if bool_decide (scheme = "") then "" else scheme ++ ":") ++
  (if bool_decide (host = "") then "" else "//" ++ escape host).

Definition parseHTTPAddr (addr : string) : string :=
  let '(host, port, _) := Net.SplitHostPort addr in
  let host := if bool_decide (host = "") then "localhost" else host in
  let port := if bool_decide (port = "") then "80" else port in
  URL_String "http" (host ++ ":" ++ port).

End HTTPAddr.

(** A host or port without colon and without brackets; a host, such as
    an IPv6 literal, without brackets. *)
Definition unbracketed (s : string) : Prop :=
  Net.IndexByte s "["%char = None ∧ Net.IndexByte s "]"%char = None.

Definition plain (s : string) : Prop :=
  Net.IndexByte s ":"%char = None ∧ unbracketed s.

(** The defaults of lines 72-77. *)
Definition or_localhost (host : string) : string :=
  if bool_decide (host = "") then "localhost" else host.
Definition or_80 (port : string) : string :=
  if bool_decide (port = "") then "80" else port.

(** ** What a run of the process can be asked about *)

Section Observations.
Context `{Ext : Externals}.

(** A state the process can be in: some schedule leads to it from the
    start. *)
Definition reachable (c : cmdline) (w : world) (s : proc) : Prop :=
  ∃ acts, run acts (start c w) = Some s.



Definition is_response (e : event) : bool :=
  match e with EResponse _ => true | _ => false end.

(** The responses sent so far, newest first. *)
Definition responses (tr : list event) : list event :=
  List.filter is_response tr.

(** The latest events are [os.Exit(1)] right after a line of the logger. *)
Definition ends_logged (tr : list event) : bool :=
  match tr with
  | EExit 1 :: (ELogPrint _ | ELogPrintf _ _) :: _ => true
  | _ => false
  end.

(** [main] is beyond line 171. *)
Definition past_setup (pc : mainPC) : bool :=
  match pc with
  | MGoServer | MParse | MSetup => false
  | _ => true
  end.

(** The goroutine was created by line 138. *)
Definition from_line_138 (t : task) : Prop :=
  t_fname t = "./static/data/go-callvis_export" ∧ t_format t = "dot".

End Observations.

(** * Properties *)

Section Facts.
Context `{Ext : Externals}.

Ltac run_monad :=
  cbv [bind ret gets modify emit os_Exit log_Printf log_Println log_Fatalf
       log_Fatal logf on_Analysis on_world go_outputDot settle].

(** Nothing moves once the process has exited. *)
Lemma exited_is_final (s : proc) (code : Z) (a : action) :
  status_of s = Exited code → step a s = None.
Proof. intros H. unfold step. rewrite H. reflexivity. Qed.

(** A failing stage of [outputDot] logs the error and exits with status 1. *)
Lemma outputDot_step_fails (fname format : string) (pc : odotPC) (s : proc) :
  stage_fails fname format pc s = true →
  ∃ s' e rest, outputDot_step fname format pc s = Halt s' ∧
    status_of s' = Exited 1 ∧
    trace s' = EExit 1 :: ELogPrintf "%v
" [e] :: rest.
Proof.
  intros Hf.
  destruct pc as [| |output|output|]; cbn [stage_fails] in Hf;
    cbn [outputDot_step]; run_monad; cbn;
    repeat case_match; simplify_eq/=; eauto 8.
Qed.


(** A failing stage of [main] ends the process with status 1. *)
Lemma batch_fatal (s : proc) :
  status_of s = Running →
  main_stage_fails s = true →
  ∃ s', step AMain s = Some s' ∧ status_of s' = Exited 1 ∧
    ∀ a, step a s' = None.
Proof.
  intros Hrun Hfail. unfold main_stage_fails in Hfail.
  unfold step. rewrite Hrun.
  destruct (main_pc s) as [| | | |pc| |]; try discriminate.
  - destruct (Analysis s) as [a|] eqn:Ha; [|discriminate].
    cbn [main_step]. run_monad. cbn. rewrite Ha.
    destruct (DoAnalysis _ _ _ _ _) as [a' [e|]]; [|discriminate]. cbn.
    eexists. split; [reflexivity|]. split; [reflexivity|].
    intros a0. eapply exited_is_final. reflexivity.
  - destruct (outputDot_step_fails _ _ _ _ Hfail) as (s' & e & rest & Hstep & Hst & Htr).
    cbn [main_step]. unfold bind at 1. rewrite Hstep. cbn.
    exists s'. split; [reflexivity|]. split; [assumption|].
    intros a0. eapply exited_is_final; eassumption.
Qed.

(** C8: in batch mode a failure of any stage that [main] runs - the
    analysis, the list arguments, rendering the description, writing the
    description file, converting it to an image - ends the process with
    exit status 1; nothing runs afterwards. *)
Theorem batch_stage_failure_exits (s : proc) :
  status_of s = Running →
  main_stage_fails s = true →
  ∃ s', step AMain s = Some s' ∧ status_of s' = Exited 1 ∧
    ∀ a, step a s' = None.
Proof. apply batch_fatal. Qed.


(** One stage of [outputDot], on an allocated [Analysis], either falls
    through and leaves the process running as it was, or ends it with
    status 1. *)
Lemma outputDot_step_total (fname format : string) (pc : odotPC) (s : proc) :
  is_Some (Analysis s) →
  (∃ pc' s', outputDot_step fname format pc s = Done pc' s' ∧
             status_of s' = status_of s ∧ is_Some (Analysis s')) ∨
  (∃ s', outputDot_step fname format pc s = Halt s' ∧ status_of s' = Exited 1).
Proof.
  intros [a Ha].
  destruct pc; cbn [outputDot_step]; run_monad; cbn; rewrite ?Ha;
    repeat case_match; simplify_eq/=;
    first [ left; eexists _, _; repeat split; eauto; fail
          | right; eexists; split; reflexivity ].
Qed.

(** So does the call as a whole. *)
Lemma outputDot_returns_or_exits (fname format : string) (s : proc) :
  is_Some (Analysis s) →
  (∃ s', outputDot fname format s = Done tt s' ∧ status_of s' = status_of s) ∨
  (∃ s', outputDot fname format s = Halt s' ∧ status_of s' = Exited 1).
Proof.
  unfold outputDot. generalize OdProcessListArgs as pc. generalize 4%nat as n.
  intros n. revert s. induction n as [|n IH]; intros s pc Hs.
  - left. exists s. split; reflexivity.
  - cbn [outputDot_from]. unfold bind.
    destruct (outputDot_step_total fname format pc s Hs)
      as [(pc' & s1 & -> & Hst & Hs1)|(s1 & -> & Hst)].
    + destruct (IH s1 pc' Hs1) as [(s2 & -> & H2)|(s2 & -> & H2)].
      * left. exists s2. split; [reflexivity|congruence].
      * right. eauto.
    + right. eauto.
Qed.

(** The render stage of a run takes the store as it is when the stage is
    entered, whenever the run was launched. *)
Lemma render_reads_live_store (s : proc) (i : nat) (fname format : string)
    (a a' : analysis) (output : bytes) :
  status_of s = Running →
  tasks s !! i = Some (Task fname format OdRender) →
  Analysis s = Some a →
  Render (flags s) a = (a', inr output) →
  step (ATask i) s =
    Some (set_tasks (<[i := Task fname format (OdWriteFile output)]> (tasks s))
            (set_Analysis (Some a')
               (set_trace (EStage StRender :: trace s) s))).
Proof.
  intros Hrun Ht Ha Hr. unfold step. rewrite Hrun, Ht.
  cbn [outputDot_step]. run_monad. cbn. rewrite Ha, Hr. reflexivity.
Qed.

(** What the handler of [/module] does to a serving process. *)
Lemma step_module (s : proc) (req : request) (a : analysis) :
  status_of s = Running → server s = SrvListening → Analysis s = Some a →
  router req = RouteModule →
  step (ARequest req) s =
    Some (set_trace
            (EResponse (RRedirect 301 "http://localhost:8000/root/test.html")
               :: trace s)
            (set_tasks
               (tasks s ++ [Task "./static/data/go-callvis_export" "dot"
                                 OdProcessListArgs])
               (set_Analysis (Some (OverrideByHTTP req (OptsSetup (flags s) a)))
                             s))).
Proof.
  intros Hrun Hsrv Ha Hroute. unfold step, serve, handle_module.
  rewrite Hrun, Hsrv, Hroute. run_monad. cbn. rewrite Ha. reflexivity.
Qed.

(** What the handler of [/options] does to a serving process. *)
Lemma step_options (s : proc) (req : request) (a : analysis) :
  status_of s = Running → server s = SrvListening → Analysis s = Some a →
  router req = RouteOptions →
  let payload := FormValue req "opts" in
  let given := bool_decide (0 < String.length payload)%nat in
  let a' := if given then UpdateOptUnMarshal payload a else a in
  step (ARequest req) s =
    Some (set_trace
            (EResponse (RString 200 (GetOptMarshal a'))
               :: (if given && debugFlag (flags s)
                   then [ELogPrintf payload []] else []) ++ trace s)
            (set_Analysis (Some a') s)).
Proof.
  intros Hrun Hsrv Ha Hroute. unfold step, serve, handle_options.
  rewrite Hrun, Hsrv, Hroute. run_monad.
  destruct (bool_decide _); cbn.
  - destruct (debugFlag (flags s)); cbn; rewrite Ha; reflexivity.
  - rewrite Ha. destruct s; reflexivity.
Qed.

Lemma length_nonempty (x : string) :
  bool_decide (0 < String.length x)%nat = bool_decide (x ≠ "").
Proof.
  destruct x; cbn.
  - rewrite !bool_decide_eq_false_2; [reflexivity|congruence|lia].
  - rewrite !bool_decide_eq_true_2; [reflexivity|congruence|lia].
Qed.

(** A serving process answers any request, and [main] stays where it is. *)
Lemma startup_answers (s : proc) :
  status_of s = Running →
  ∀ req, server s = SrvListening → is_Some (Analysis s) →
     ∃ s' r, step (ARequest req) s = Some s' ∧ main_pc s' = main_pc s ∧
             status_of s' = Running ∧ head (trace s') = Some (EResponse r).
Proof.
  intros Hrun req Hsrv [a Ha].
  destruct (router req) as [| |fp|] eqn:Hroute.
  - pose proof (step_options s req a Hrun Hsrv Ha Hroute) as H. cbn zeta in H.
    rewrite H. eexists _, _. split; [reflexivity|]. cbn. auto.
  - rewrite (step_module s req a Hrun Hsrv Ha Hroute).
    eexists _, _. split; [reflexivity|]. cbn. auto.
  - unfold step, serve. rewrite Hrun, Hsrv, Hroute. cbn.
    eexists _, _. split; [reflexivity|]. cbn. auto.
  - unfold step, serve. rewrite Hrun, Hsrv, Hroute. cbn.
    eexists _, _. split; [reflexivity|]. cbn. auto.
Qed.


(** C3 (amended): nothing looks for a run already in flight: every
    render-trigger request starts an [outputDot] goroutine of its own, so
    [n] requests, whatever their options, add [n] goroutines, all of them
    pending at once. *)
Theorem every_trigger_starts_a_run (reqs : list request) (s : proc) :
  serving s →
  Forall (λ req, router req = RouteModule) reqs →
  ∃ s', run (ARequest <$> reqs) s = Some s' ∧ serving s' ∧
    tasks s' = (tasks s ++
      replicate (length reqs)
        (Task "./static/data/go-callvis_export" "dot" OdProcessListArgs))%list.
Proof.
  revert s. induction reqs as [|req reqs IH]; intros s Hs Hall.
  - exists s. cbn. rewrite app_nil_r. auto.
  - destruct Hs as (Hrun & Hsrv & a & Ha).
    inversion Hall as [|? ? Hroute Hrest]; subst.
    cbn [fmap list_fmap run]. rewrite (step_module s req a Hrun Hsrv Ha Hroute).
    match goal with
    | |- context [run _ ?st] =>
        destruct (IH st) as (s' & Hrun' & Hserv' & Htasks);
          [repeat split; cbn; eauto|exact Hrest|]
    end.
    exists s'. split; [exact Hrun'|]. split; [exact Hserv'|].
    rewrite Htasks. cbn. rewrite <- app_assoc. reflexivity.
Qed.

(** C4: a render-trigger request is answered by the redirect (status 301)
    to the fixed viewer address as soon as the [outputDot] goroutine is
    created: the goroutine is appended to the pool before its first
    statement, the response is the only new event, and neither the
    outside world nor the other goroutines have moved. *)
Theorem trigger_redirects_before_the_run (s : proc) (req : request) :
  serving s →
  router req = RouteModule →
  ∃ s', step (ARequest req) s = Some s' ∧
    trace s' =
      EResponse (RRedirect StatusMovedPermanently
                           "http://localhost:8000/root/test.html") :: trace s ∧
    tasks s' = (tasks s ++ [Task "./static/data/go-callvis_export" "dot"
                                 OdProcessListArgs])%list ∧
    wld s' = wld s ∧ main_pc s' = main_pc s ∧ status_of s' = Running.
Proof.
  intros (Hrun & Hsrv & a & Ha) Hroute.
  rewrite (step_module s req a Hrun Hsrv Ha Hroute).
  eexists. split; [reflexivity|]. cbn. auto.
Qed.

(** C6: an option-exchange request with a non-empty [opts] payload merges
    it into the store before answering; with or without payload the
    answer is status 200 with the serialized options of the store as the
    request leaves it. *)
Theorem option_exchange_answers_store (s : proc) (req : request) (a : analysis) :
  status_of s = Running → server s = SrvListening → Analysis s = Some a →
  router req = RouteOptions →
  ∃ s' a', step (ARequest req) s = Some s' ∧
    a' = (if bool_decide (FormValue req "opts" ≠ "")
          then UpdateOptUnMarshal (FormValue req "opts") a else a) ∧
    Analysis s' = Some a' ∧
    head (trace s') = Some (EResponse (RString StatusOK (GetOptMarshal a'))) ∧
    tasks s' = tasks s.
Proof.
  intros Hrun Hsrv Ha Hroute.
  pose proof (step_options s req a Hrun Hsrv Ha Hroute) as H. cbn zeta in H.
  rewrite length_nonempty in H. rewrite H.
  eexists _, _. split; [reflexivity|]. cbn. auto.
Qed.


(** C10: when the last stage of the start-up run succeeds, [main] does not
    leave: it enters [time.Sleep(time.Hour)], 3600 seconds counted in
    nanoseconds, the process keeps running and the server goroutine is as
    it was; [main] reaches its end only when that sleep is over. *)
Theorem main_sleeps_after_success (s : proc) (output : bytes) :
  status_of s = Running →
  main_pc s = MOutputDot (OdDotToImage output) →
  stage_fails "./static/data/go-callvis_export" "dot" (OdDotToImage output) s
    = false →
  ∃ s1 s2, step AMain s = Some s1 ∧
    status_of s1 = Running ∧ main_pc s1 = MSleep ∧ server s1 = server s ∧
    step AMain s1 = Some s2 ∧
    trace s2 = ESleep (3600 * 1000000000) :: trace s1 ∧
    status_of s2 = Running ∧ main_pc s2 = MReturn ∧ server s2 = server s.
Proof.
  intros Hrun Hpc Hok. unfold step at 1. rewrite Hrun, Hpc.
  cbn [main_step outputDot_step stage_fails] in *. run_monad. cbn.
  destruct (dotToImage _ _ _ _ _) as [w' [e|img]]; [discriminate|]. cbn.
  eexists _, _. split; [reflexivity|]. cbn.
  do 3 (split; [done|]).
  unfold step. cbn. rewrite Hrun. cbn.
  split; [reflexivity|]. cbn. auto.
Qed.

End Facts.

(** C9: with no flag on the command line, parsing succeeds and leaves
    focus = main, group = pkg, nostd = true, nointer = true, tests = false,
    format = svg, minlen = 2, nodesep = 0.35, nodeshape = box,
    nodestyle = filled,rounded and rankdir = LR, whatever the positional
    arguments are. *)
Theorem defaults_without_flags (args : list string) :
  ∃ fs, flag_Parse (settings (CmdLine [] args)) CommandLine = inr fs ∧
    focusFlag fs = "main" ∧ groupFlag fs = "pkg" ∧
    nostdFlag fs = true ∧ nointerFlag fs = true ∧ testFlag fs = false ∧
    outputFormat fs = "svg" ∧ minlen fs = 2%N ∧ nodesep fs = 0.35%float ∧
    nodeshape fs = "box" ∧ nodestyle fs = "filled,rounded" ∧
    rankdir fs = "LR".
Proof.
  exists CommandLine. split; [reflexivity|].
  repeat split; vm_compute; reflexivity.
Qed.

(** ** On the concrete store *)

#[local] Existing Instance Demo.ext.




(** No snapshot is taken: an override merged through [/options] after the
    trigger, before the run has rendered, is what the run renders. *)
Example later_override_reaches_run :
  (λ s, t_pc <$> tasks s) <$>
    run (Demo.boot ++
           [ARequest (Demo.GET "/module" []); ATask 0;
            ARequest (Demo.GET "/options" [("opts", "focus=lib")]); ATask 0])
        Demo.init
    = Some [OdWriteFile (String.list_byte_of_string
        "digraph gocallvis { /* focus=lib&group=pkg&limit=&ignore=&include=&nostd=true&nointer=true&rankdir=LR */ }")].
Proof. vm_compute. reflexivity. Qed.

(** ** Runs of [go-callvis app] *)

Ltac by_running := vm_compute; first [reflexivity | eauto].

Lemma booted_serving : serving Demo.booted.
Proof. repeat split; by_running. Qed.





(** C3 (as stated) fails: two render triggers with identical options give
    two runs, in flight together (both past their first stage, neither
    finished); carried to their end they make three conversions with the
    one of the start-up run. *)
Lemma identical_triggers_run_twice :
  (λ s, (status_of s, t_pc <$> tasks s)) <$>
    run (Demo.boot ++
           [ARequest (Demo.GET "/module" []); ARequest (Demo.GET "/module" []);
            ATask 0; ATask 1])
        Demo.init
    = Some (Running, [OdRender; OdRender]) ∧
  (λ s, entries StDotToImage (trace s)) <$>
    run (Demo.boot ++
           [ARequest (Demo.GET "/module" []); ARequest (Demo.GET "/module" []);
            ATask 0; ATask 1; ATask 0; ATask 1; ATask 0; ATask 1; ATask 0; ATask 1])
        Demo.init
    = Some 3%nat.
Proof. split; vm_compute; reflexivity. Qed.

Lemma every_trigger_starts_a_run_witness :
  let reqs := [Demo.GET "/module" []; Demo.GET "/module" []] in
  serving Demo.booted ∧ Forall (λ req, router req = RouteModule) reqs ∧
  ∃ s', run (ARequest <$> reqs) Demo.booted = Some s' ∧ serving s' ∧
    length (tasks s') = 2%nat.
Proof.
  intros reqs.
  assert (Forall (λ req, router req = RouteModule) reqs) as Hall
    by (repeat constructor).
  split; [exact booted_serving|]. split; [exact Hall|].
  destruct (every_trigger_starts_a_run reqs Demo.booted booted_serving Hall)
    as (s' & Hrun & Hserv & Htasks).
  exists s'. split; [exact Hrun|]. split; [exact Hserv|].
  rewrite Htasks. vm_compute. reflexivity.
Defined.

Lemma trigger_redirects_before_the_run_witness :
  serving Demo.booted ∧ router (Demo.GET "/module" []) = RouteModule ∧
  ∃ s', step (ARequest (Demo.GET "/module" [])) Demo.booted = Some s' ∧
    head (trace s') =
      Some (EResponse (RRedirect 301 "http://localhost:8000/root/test.html")) ∧
    t_pc <$> tasks s' = [OdProcessListArgs].
Proof.
  split; [exact booted_serving|]. split; [reflexivity|].
  destruct (trigger_redirects_before_the_run Demo.booted (Demo.GET "/module" [])
              booted_serving eq_refl)
    as (s' & Hstep & Htr & Htasks & _).
  exists s'. split; [exact Hstep|]. rewrite Htr, Htasks.
  split; vm_compute; reflexivity.
Defined.

Lemma option_exchange_answers_store_witness :
  let req := Demo.GET "/options" [("opts", "nointer=false")] in
  let a := Demo.AnalysisT (Demo.RenderOpts "main" "pkg" "" "" "" true true)
                          [("app", "main"); ("app/lib", "lib")] in
  status_of Demo.booted = Running ∧ server Demo.booted = SrvListening ∧
  Analysis Demo.booted = Some a ∧ router req = RouteOptions ∧
  ∃ s', step (ARequest req) Demo.booted = Some s' ∧
    head (trace s') =
      Some (EResponse (RString 200
        "focus=main&group=pkg&limit=&ignore=&include=&nostd=true&nointer=false")).
Proof.
  intros req a.
  assert (status_of Demo.booted = Running) as H1 by (vm_compute; reflexivity).
  assert (server Demo.booted = SrvListening) as H2 by (vm_compute; reflexivity).
  assert (Analysis Demo.booted = Some a) as H3 by (vm_compute; reflexivity).
  assert (router req = RouteOptions) as H4 by reflexivity.
  repeat (split; [assumption|]).
  destruct (option_exchange_answers_store Demo.booted req a H1 H2 H3 H4)
    as (s' & a' & Hstep & Ha' & _ & Htr & _).
  exists s'. split; [exact Hstep|]. rewrite Htr, Ha'. vm_compute. reflexivity.
Defined.



Lemma batch_stage_failure_exits_witness :
  let s := Demo.trail (CmdLine [] ["app"]) Demo.machine_without_dot
             [AMain; AMain; AMain; AMain; AMain; AMain; AMain] in
  status_of s = Running ∧ main_stage_fails s = true ∧
  ∃ s', step AMain s = Some s' ∧ status_of s' = Exited 1 ∧
    ∀ a, step a s' = None.
Proof.
  intros s.
  assert (status_of s = Running) as H1 by (vm_compute; reflexivity).
  assert (main_stage_fails s = true) as H2 by (vm_compute; reflexivity).
  repeat (split; [assumption|]).
  exact (batch_stage_failure_exits s H1 H2).
Defined.

Lemma main_sleeps_after_success_witness :
  let s := Demo.after [AMain; AServer; AMain; AMain; AMain; AMain; AMain; AMain] in
  let output := String.list_byte_of_string
    "digraph gocallvis { /* focus=main&group=pkg&limit=&ignore=&include=&nostd=true&nointer=true&rankdir=LR */ }" in
  status_of s = Running ∧ main_pc s = MOutputDot (OdDotToImage output) ∧
  stage_fails "./static/data/go-callvis_export" "dot" (OdDotToImage output) s
    = false ∧
  ∃ s1 s2, step AMain s = Some s1 ∧
    status_of s1 = Running ∧ main_pc s1 = MSleep ∧ server s1 = SrvListening ∧
    step AMain s1 = Some s2 ∧ status_of s2 = Running ∧ main_pc s2 = MReturn.
Proof.
  intros s output.
  assert (status_of s = Running) as H1 by (vm_compute; reflexivity).
  assert (main_pc s = MOutputDot (OdDotToImage output)) as H2
    by (vm_compute; reflexivity).
  assert (stage_fails "./static/data/go-callvis_export" "dot"
            (OdDotToImage output) s = false) as H3 by (vm_compute; reflexivity).
  repeat (split; [assumption|]).
  destruct (main_sleeps_after_success s output H1 H2 H3)
    as (s1 & s2 & Hs1 & Hr1 & Hp1 & Hsrv1 & Hs2 & _ & Hr2 & Hp2 & _).
  exists s1, s2. rewrite Hsrv1.
  repeat apply conj; try assumption. vm_compute. reflexivity.
Defined.

(** * Further properties of [main.go] *)

Section Schedules.
Context `{Ext : Externals}.

Ltac run_monad_in H :=
  cbv [bind ret gets modify emit os_Exit log_Printf log_Println log_Fatalf
       log_Fatal logf on_Analysis on_world go_outputDot settle ginServer
       serve handle_options handle_module] in H.

(** Every way a step can go, with the state it leads to computed. *)
Ltac step_cases H :=
  unfold step in H;
  repeat lazymatch type of H with
  | context [match status_of ?s with _ => _ end] =>
      destruct (status_of s) eqn:?; [|discriminate H]
  | context [match ?a with AMain => _ | _ => _ end] => destruct a
  | context [main_step (main_pc ?s)] =>
      destruct (main_pc s) as [| | | |[]| |] eqn:?
  | context [match server ?s with _ => _ end] =>
      destruct (server s) eqn:?; try discriminate H
  | context [match tasks ?s !! ?i with _ => _ end] =>
      destruct (tasks s !! i) as [[? ? []]|] eqn:?; try discriminate H
  end;
  cbn [main_step outputDot_step] in H; run_monad_in H; cbn in H;
  repeat case_match; simplify_eq/=.

(** A property kept by every step holds along every schedule. *)
Lemma run_invariant (I : proc → Prop) :
  (∀ a s s', I s → step a s = Some s' → I s') →
  ∀ acts s s', I s → run acts s = Some s' → I s'.
Proof.
  intros Hstep acts. induction acts as [|a acts IH]; intros s s' Hs Hrun.
  - cbn in Hrun. congruence.
  - cbn in Hrun. destruct (step a s) as [s1|] eqn:E; [|discriminate].
    eapply IH; [|exact Hrun]. eapply Hstep; eassumption.
Qed.

(** X1: whatever the command line, the world, the requests and the
    interleaving, the process ends with exit status 0, 1 or 2 only. *)
Theorem exit_status_is_0_1_or_2 (c : cmdline) (w : world) (s : proc) :
  reachable c w s →
  status_of s = Running ∨ status_of s = Exited 0 ∨
  status_of s = Exited 1 ∨ status_of s = Exited 2.
Proof.
  intros [acts Hrun]. revert Hrun.
  apply (run_invariant (λ s, status_of s = Running ∨ status_of s = Exited 0 ∨
                             status_of s = Exited 1 ∨ status_of s = Exited 2));
    [|left; reflexivity].
  clear. intros a s s' _ H. step_cases H; cbn; auto.
Qed.

(** X2: the process never exits with status 1 silently: whenever it has
    ended with status 1, the event just before the exit is a line of the
    logger. *)
Theorem exit_1_follows_a_log_line (c : cmdline) (w : world) (s : proc) :
  reachable c w s →
  status_of s = Exited 1 →
  ends_logged (trace s) = true.
Proof.
  intros [acts Hrun]. revert Hrun.
  apply (run_invariant (λ s, status_of s = Exited 1 → ends_logged (trace s) = true));
    [|discriminate].
  clear. intros a s s' _ H.
  step_cases H; cbn; intros; first [congruence | reflexivity].
Qed.


(** The store, once allocated, stays allocated, and it is allocated when
    [main] has passed line 171. *)
Lemma store_allocated_past_setup (c : cmdline) (w : world) (s : proc) :
  reachable c w s →
  past_setup (main_pc s) = true → is_Some (Analysis s).
Proof.
  intros [acts Hrun]. revert Hrun.
  apply (run_invariant (λ s, past_setup (main_pc s) = true → is_Some (Analysis s)));
    [|discriminate].
  clear. intros a s s' Hs H.
  step_cases H; cbn; intros; simplify_eq/=; eauto;
    try (apply Hs; congruence);
    match goal with
    | E : main_pc _ = _ |- _ => rewrite E in *; cbn in *
    end; first [discriminate | eauto].
Qed.

(** X4: once [main] has passed line 171 (the store is allocated and set
    up), a listening server answers every request, whatever else is going
    on: no request meets a nil store. *)
Theorem requests_answered_past_setup (c : cmdline) (w : world) (s : proc)
    (req : request) :
  reachable c w s →
  past_setup (main_pc s) = true →
  status_of s = Running → server s = SrvListening →
  ∃ s' r, step (ARequest req) s = Some s' ∧ status_of s' = Running ∧
          head (trace s') = Some (EResponse r).
Proof.
  intros Hreach Hpast Hrun Hsrv.
  pose proof (store_allocated_past_setup c w s Hreach Hpast) as Ha.
  destruct (startup_answers s Hrun req Hsrv Ha) as (s' & r & H1 & _ & H2 & H3).
  eauto.
Qed.

(** X5: every goroutine of [outputDot] works on the fixed file name
    [./static/data/go-callvis_export] with the format [dot], whatever the
    flags ([-file] and [-format] included) and the requests were. *)
Theorem runs_ignore_file_and_format (c : cmdline) (w : world) (s : proc) :
  reachable c w s →
  Forall from_line_138 (tasks s).
Proof.
  intros [acts Hrun]. revert Hrun.
  apply (run_invariant (λ s, Forall from_line_138 (tasks s))); [|constructor].
  clear. intros a s s' Hs H.
  step_cases H; cbn; try assumption;
    try (apply Forall_app; split; [assumption|repeat constructor]);
    (apply Forall_insert; [assumption|]);
    match goal with
    | E : tasks _ !! _ = Some _ |- _ =>
        exact (proj1 (Forall_lookup _ _) Hs _ _ E)
    end.
Qed.

(** X6: when [r.Run] cannot listen, nothing is logged and the process goes
    on, but from then on no request is ever answered. *)
Theorem listen_failure_is_silent (s : proc) :
  status_of s = Running → server s = SrvStarting → main_pc s ≠ MGoServer →
  Listen ":8000" (wld s) = false →
  ∃ s1, step AServer s = Some s1 ∧ status_of s1 = Running ∧
    trace s1 = trace s ∧
    ∀ acts s2, run acts s1 = Some s2 →
      server s2 = SrvReturned ∧ responses (trace s2) = responses (trace s).
Proof.
  intros Hrun Hsrv Hpc Hl. unfold step. rewrite Hrun, Hsrv.
  cbv [ginServer bind gets modify settle]. rewrite Hl.
  eexists. split; [reflexivity|]. split; [exact Hrun|]. split; [reflexivity|].
  intros acts s2 Hacts.
  enough (main_pc s2 ≠ MGoServer ∧ server s2 = SrvReturned ∧
          responses (trace s2) = responses (trace s)) by tauto.
  revert Hacts.
  apply (run_invariant (λ s2, main_pc s2 ≠ MGoServer ∧ server s2 = SrvReturned ∧
                              responses (trace s2) = responses (trace s)));
    [|repeat split; assumption].
  clear. intros a s1 s' (Hpc & Hs & Hr) H. unfold responses in *.
  step_cases H; cbn; repeat split; auto; congruence.
Qed.

(** X7: the service lives one hour at most after a successful start: when
    the sleep of line 178 is over [main] returns, which ends the process
    with status 0 whatever the server and the [outputDot] goroutines are
    doing; nothing is answered after that. *)
Theorem process_ends_after_the_sleep (s : proc) :
  status_of s = Running → main_pc s = MSleep →
  ∃ s1 s2, step AMain s = Some s1 ∧ step AMain s1 = Some s2 ∧
    status_of s2 = Exited 0 ∧
    trace s2 = EExit 0 :: ESleep (60 * 60 * 1000000000) :: trace s ∧
    tasks s2 = tasks s ∧ server s2 = server s ∧
    ∀ a, step a s2 = None.
Proof.
  intros Hrun Hpc. unfold step at 1. rewrite Hrun, Hpc. cbn.
  eexists _, _. split; [reflexivity|].
  unfold step at 1. cbn. rewrite Hrun. cbn.
  split; [reflexivity|]. cbn. repeat split.
Qed.

(** X8: only [GET /options] and [GET /module] act on the process: any
    other request is answered without touching the store, the goroutines,
    the outside world or the log. *)
Theorem other_requests_change_nothing (s s' : proc) (req : request) :
  ¬ (method req = "GET" ∧ (path req = "/options" ∨ path req = "/module")) →
  step (ARequest req) s = Some s' →
  ∃ r, s' = set_trace (EResponse r :: trace s) s.
Proof.
  intros Hno H. unfold step in H.
  destruct (status_of s); [|discriminate].
  destruct (server s); try discriminate.
  unfold serve, router in H.
  repeat case_bool_decide; try (exfalso; apply Hno; tauto);
    destruct (_ && _); cbn in H; simplify_eq; eauto.
Qed.

(** X9: an option override that arrives after a render trigger, before
    the triggered run has rendered, is what the run renders: the run works
    on the store as the later request left it. *)
Theorem later_override_reaches_the_run (s : proc) (trigger exchange : request)
    (a a3 a4 : analysis) (output : bytes) :
  status_of s = Running → server s = SrvListening → Analysis s = Some a →
  router trigger = RouteModule → router exchange = RouteOptions →
  FormValue exchange "opts" ≠ "" →
  let a2 := UpdateOptUnMarshal (FormValue exchange "opts")
              (OverrideByHTTP trigger (OptsSetup (flags s) a)) in
  ProcessListArgs a2 = (a3, None) →
  Render (flags s) a3 = (a4, inr output) →
  ∃ s', run [ARequest trigger; ARequest exchange;
             ATask (length (tasks s)); ATask (length (tasks s))] s = Some s' ∧
    tasks s' !! length (tasks s) =
      Some (Task "./static/data/go-callvis_export" "dot" (OdWriteFile output)) ∧
    Analysis s' = Some a4.
Proof.
  intros Hrun Hsrv Ha Ht He Hp a2 Hpla Hrender.
  cbn [run]. rewrite (step_module s trigger a Hrun Hsrv Ha Ht).
  match goal with |- context [step (ARequest exchange) ?st] =>
    pose proof (step_options st exchange _ Hrun Hsrv eq_refl He) as H
  end.
  cbn zeta in H. rewrite length_nonempty in H.
  rewrite bool_decide_eq_true_2 in H by exact Hp. rewrite H. clear H.
  unfold step. cbn. rewrite Hrun.
  rewrite lookup_app_r by lia. rewrite Nat.sub_diag. cbn.
  cbv [bind emit modify on_Analysis ret settle]. cbn.
  fold a2. rewrite Hpla. cbn. rewrite Hrun.
  rewrite list_lookup_insert_eq by (rewrite length_app; cbn; lia). cbn.
  cbv [bind emit modify on_Analysis ret settle gets]. cbn.
  rewrite Hrender. cbn.
  eexists. split; [reflexivity|]. cbn.
  split; [|reflexivity].
  apply list_lookup_insert_eq. rewrite length_insert, length_app. cbn. lia.
Qed.

End Schedules.

(** ** The command line *)



(** A flag that the settings do not name is left alone. *)
Lemma flag_Parse_other (ss : list (string * flagValue)) (fs fs' : FlagSet)
    (name : string) :
  flag_Parse ss fs = inr fs' →
  name ∉ ss.*1 →
  fs' !! name = fs !! name.
Proof.
  revert fs. induction ss as [|[n v] ss IH]; intros fs H Hnot; cbn in H.
  - congruence.
  - destruct (flag_Set fs n v) as [e|fs1] eqn:E; [discriminate|].
    cbn in Hnot. apply not_elem_of_cons in Hnot as [Hne Hnot].
    rewrite (IH _ H Hnot). unfold flag_Set in E.
    destruct (fs !! n) as [old|]; [|case_bool_decide; discriminate].
    destruct (same_kind old v); simplify_eq.
    apply lookup_insert_ne. congruence.
Qed.

(** X10: whatever flags are given, a flag that the command line does not
    name holds after [flag.Parse] its default of lines 34-62. *)
Theorem unnamed_flags_keep_their_value (ss : list (string * flagValue))
    (fs' : FlagSet) (name : string) :
  flag_Parse ss CommandLine = inr fs' →
  name ∉ ss.*1 →
  fs' !! name = CommandLine !! name.
Proof. apply flag_Parse_other. Qed.

(** X11: a flag given several times holds the last value given. *)
Theorem last_setting_wins (before after : list (string * flagValue))
    (name : string) (v : flagValue) (fs fs' : FlagSet) :
  flag_Parse (before ++ (name, v) :: after) fs = inr fs' →
  name ∉ after.*1 →
  fs' !! name = Some v.
Proof.
  revert fs. induction before as [|[n w] before IH]; intros fs H Hnot; cbn in H.
  - destruct (flag_Set fs name v) as [e|fs1] eqn:E; [discriminate|].
    rewrite (flag_Parse_other _ _ _ _ H Hnot).
    unfold flag_Set in E.
    destruct (fs !! name) as [old|]; [|case_bool_decide; discriminate].
    destruct (same_kind old v); simplify_eq. apply lookup_insert_eq.
  - destruct (flag_Set fs n w) as [e|fs1] eqn:E; [discriminate|]. eauto.
Qed.


(** ** Addresses *)

Section AddrFacts.
Variable escape : string → string.

Lemma append_nil (t : string) : "" ++ t = t.
Proof. reflexivity. Qed.

Lemma append_cons (x : ascii) (s t : string) :
  String x s ++ t = String x (s ++ t).
Proof. reflexivity. Qed.

Ltac push_append := repeat first [rewrite append_nil | rewrite append_cons].

Lemma append_snoc (s t : string) (c : ascii) :
  (s ++ String c "") ++ t = s ++ String c t.
Proof. induction s; push_append; congruence. Qed.

Lemma length_append (s t : string) :
  String.length (s ++ t) = (String.length s + String.length t)%nat.
Proof. induction s; push_append; cbn; congruence. Qed.

Lemma IndexByte_None_last (s : string) (c : ascii) :
  Net.IndexByte s c = None → Net.LastIndexByte s c = None.
Proof.
  induction s as [|x s IH]; cbn; [reflexivity|].
  case_bool_decide; [discriminate|].
  destruct (Net.IndexByte s c); [discriminate|]. intros _.
  rewrite IH by reflexivity. reflexivity.
Qed.

Lemma LastIndexByte_app (s t : string) (c : ascii) :
  Net.IndexByte t c = None →
  Net.LastIndexByte (s ++ String c t) c = Some (String.length s).
Proof.
  intros Ht. induction s as [|x s IH]; push_append; cbn.
  - rewrite (IndexByte_None_last _ _ Ht). rewrite bool_decide_eq_true_2; reflexivity.
  - rewrite IH. reflexivity.
Qed.

Lemma IndexByte_app_first (s t : string) (c : ascii) :
  Net.IndexByte s c = None →
  Net.IndexByte (s ++ String c t) c = Some (String.length s).
Proof.
  induction s as [|x s IH]; push_append; cbn.
  - intros _. rewrite bool_decide_eq_true_2; reflexivity.
  - case_bool_decide; [discriminate|].
    destruct (Net.IndexByte s c) eqn:E; [discriminate|]. intros _.
    rewrite IH by reflexivity. reflexivity.
Qed.

Lemma IndexByte_app_None (s t : string) (c : ascii) :
  Net.IndexByte s c = None → Net.IndexByte t c = None →
  Net.IndexByte (s ++ t) c = None.
Proof.
  intros Hs Ht. induction s as [|x s IH]; push_append; cbn in *; [assumption|].
  case_bool_decide; [discriminate|].
  destruct (Net.IndexByte s c); [discriminate|].
  rewrite IH by reflexivity. reflexivity.
Qed.

Lemma substring_all (s : string) : String.substring 0 (String.length s) s = s.
Proof. induction s; cbn; congruence. Qed.

Lemma upto_app (s t : string) : Net.upto (String.length s) (s ++ t) = s.
Proof.
  unfold Net.upto. induction s as [|x s IH]; push_append; cbn.
  - destruct t; reflexivity.
  - rewrite IH. reflexivity.
Qed.

Lemma from_app (s t : string) (k : nat) :
  Net.from (String.length s + k) (s ++ t) = Net.from k t.
Proof.
  unfold Net.from. induction s as [|x s IH]; push_append; cbn; [reflexivity|].
  exact IH.
Qed.

Lemma from_0 (s : string) : Net.from 0 s = s.
Proof. unfold Net.from. rewrite Nat.sub_0_r. apply substring_all. Qed.

Lemma from_S (x : ascii) (s : string) (k : nat) :
  Net.from (S k) (String x s) = Net.from k s.
Proof. reflexivity. Qed.

Lemma URL_String_http (host : string) :
  host ≠ "" → URL_String escape "http" host = "http://" ++ escape host.
Proof.
  intros H. unfold URL_String.
  rewrite (bool_decide_eq_false_2 (host = "")) by exact H. reflexivity.
Qed.

Lemma host_port_nonempty (h p : string) : or_localhost h ++ ":" ++ or_80 p ≠ "".
Proof.
  unfold or_localhost. case_bool_decide; [discriminate|].
  destruct h; [congruence|discriminate].
Qed.

(** What [parseHTTPAddr] makes of the three results of [SplitHostPort]. *)
Lemma parseHTTPAddr_of_split (addr host port : string) (e : option error) :
  Net.SplitHostPort addr = (host, port, e) →
  parseHTTPAddr escape addr =
    "http://" ++ escape (or_localhost host ++ ":" ++ or_80 port).
Proof.
  intros H. unfold parseHTTPAddr. rewrite H.
  apply URL_String_http, host_port_nonempty.
Qed.

(** X13: whatever the address, the URL that [parseHTTPAddr] builds names a
    host and a port, neither of them empty. *)
Theorem parseHTTPAddr_names_host_and_port (addr : string) :
  ∃ host port, host ≠ "" ∧ port ≠ "" ∧
    parseHTTPAddr escape addr = "http://" ++ escape (host ++ ":" ++ port).
Proof.
  destruct (Net.SplitHostPort addr) as [[host port] e] eqn:E.
  exists (or_localhost host), (or_80 port).
  split; [|split; [|exact (parseHTTPAddr_of_split _ _ _ _ E)]].
  - unfold or_localhost. case_bool_decide; [discriminate|assumption].
  - unfold or_80. case_bool_decide; [discriminate|assumption].
Qed.

(** X14: an address without a colon loses its host: the error of
    [SplitHostPort] is dropped and the URL is that of [localhost:80]. *)
Theorem address_without_colon_is_localhost_80 (addr : string) :
  Net.IndexByte addr ":"%char = None →
  parseHTTPAddr escape addr = "http://" ++ escape "localhost:80".
Proof.
  intros H. apply IndexByte_None_last in H.
  assert (Net.SplitHostPort addr = Net.addrErr addr Net.missingPort) as E
    by (unfold Net.SplitHostPort; rewrite H; reflexivity).
  unfold Net.addrErr in E. rewrite (parseHTTPAddr_of_split _ _ _ _ E).
  reflexivity.
Qed.

Lemma SplitHostPort_plain (host port : string) :
  plain host → plain port →
  Net.SplitHostPort (host ++ ":" ++ port) = (host, port, None).
Proof.
  intros (Hc & Hl & Hr) (Hc' & Hl' & Hr'). unfold Net.SplitHostPort.
  change (host ++ ":" ++ port) with (host ++ String ":" port).
  rewrite (LastIndexByte_app _ _ _ Hc').
  rewrite bool_decide_eq_false_2.
  2:{ destruct host as [|x host]; push_append; cbn; [discriminate|].
      cbn in Hl. case_bool_decide as Hx; [discriminate|].
      intros [= Heq]. exact (Hx Heq). }
  rewrite upto_app.
  rewrite bool_decide_eq_false_2 by (rewrite Hc; intros [? ?]; discriminate).
  unfold Net.split_tail. rewrite from_0.
  rewrite !bool_decide_eq_false_2.
  - replace (S (String.length host)) with (String.length host + 1)%nat by lia.
    rewrite from_app, from_S, from_0. reflexivity.
  - rewrite IndexByte_app_None; [intros [? ?]; discriminate|assumption|].
    cbn. rewrite Hr'. reflexivity.
  - rewrite IndexByte_app_None; [intros [? ?]; discriminate|assumption|].
    cbn. rewrite Hl'. reflexivity.
Qed.

(** X15: for [host:port] with a host and a port free of colons and
    brackets, the URL is [http://host:port], an empty host read as
    [localhost] and an empty port as [80]. *)
Theorem parseHTTPAddr_host_port (host port : string) :
  plain host → plain port →
  parseHTTPAddr escape (host ++ ":" ++ port) =
    "http://" ++ escape (or_localhost host ++ ":" ++ or_80 port).
Proof.
  intros Hh Hp. eapply parseHTTPAddr_of_split. apply SplitHostPort_plain; assumption.
Qed.

Lemma SplitHostPort_bracketed (host port : string) :
  unbracketed host → plain port →
  Net.SplitHostPort ("[" ++ host ++ "]:" ++ port) = (host, port, None).
Proof.
  intros (Hl & Hr) (Hc' & Hl' & Hr'). unfold Net.SplitHostPort.
  change ("[" ++ host ++ "]:" ++ port)
    with (String "[" (host ++ String "]" (String ":" port))).
  assert (String "[" (host ++ String "]" (String ":" port))
          = (String "[" (host ++ "]")) ++ String ":" port) as Hsplit.
  { push_append. rewrite append_snoc. reflexivity. }
  rewrite Hsplit at 1. rewrite (LastIndexByte_app _ _ _ Hc').
  rewrite bool_decide_eq_true_2 by reflexivity.
  assert (Net.IndexByte (String "[" (host ++ String "]" (String ":" port))) "]"
          = Some (S (String.length host))) as Hend.
  { cbn. rewrite (IndexByte_app_first _ _ _ Hr). reflexivity. }
  rewrite Hend.
  assert (String.length (String "[" (host ++ "]")) = S (S (String.length host)))
    as Hlen.
  { cbn. rewrite length_append. cbn. lia. }
  rewrite Hlen.
  rewrite bool_decide_eq_false_2.
  2:{ cbn. rewrite length_append. cbn. lia. }
  rewrite bool_decide_eq_true_2 by reflexivity.
  unfold Net.split_tail. rewrite !from_S, from_0.
  replace (S (String.length host) - 1)%nat with (String.length host) by lia.
  cbn [String.substring].
  change (String.substring 0 (String.length host) (host ++ String "]" (String ":" port)))
    with (Net.upto (String.length host) (host ++ String "]" (String ":" port))).
  rewrite upto_app.
  rewrite !bool_decide_eq_false_2.
  - replace (S (S (String.length host))) with (String.length host + 2)%nat by lia.
    rewrite from_app, !from_S, from_0. reflexivity.
  - replace (S (String.length host)) with (String.length host + 1)%nat by lia.
    rewrite from_app, from_S, from_0. cbn. rewrite Hr'.
    intros [? ?]; discriminate.
  - rewrite IndexByte_app_None; [intros [? ?]; discriminate|assumption|].
    cbn. rewrite Hl'. reflexivity.
Qed.

(** X16: for a bracketed host, as an IPv6 literal must be written, the
    brackets are dropped and not put back: [[host]:port] gives the URL
    [http://host:port]. *)
Theorem parseHTTPAddr_drops_brackets (host port : string) :
  unbracketed host → plain port →
  parseHTTPAddr escape ("[" ++ host ++ "]:" ++ port) =
    "http://" ++ escape (or_localhost host ++ ":" ++ or_80 port).
Proof.
  intros Hh Hp. eapply parseHTTPAddr_of_split.
  apply SplitHostPort_bracketed; assumption.
Qed.

End AddrFacts.


(** ** Instances of the further properties *)

Lemma booted_reachable : reachable (CmdLine [] ["app"]) Demo.machine Demo.booted.
Proof. exists Demo.boot. vm_compute. reflexivity. Qed.

Lemma failure_reachable :
  reachable (CmdLine [] ["app"]) Demo.machine (Demo.after Demo.to_failure).
Proof. exists Demo.to_failure. vm_compute. reflexivity. Qed.

Lemma exit_status_is_0_1_or_2_witness :
  reachable (CmdLine [] ["app"]) Demo.machine (Demo.after Demo.to_failure) ∧
  status_of (Demo.after Demo.to_failure) = Exited 1.
Proof.
  split; [exact failure_reachable|].
  destruct (exit_status_is_0_1_or_2 _ _ _ failure_reachable)
    as [H|[H|[H|H]]]; [exfalso | exfalso | exact H | exfalso];
    revert H; vm_compute; discriminate.
Defined.

Lemma exit_1_follows_a_log_line_witness :
  reachable (CmdLine [] ["app"]) Demo.machine (Demo.after Demo.to_failure) ∧
  status_of (Demo.after Demo.to_failure) = Exited 1 ∧
  ends_logged (trace (Demo.after Demo.to_failure)) = true.
Proof.
  assert (status_of (Demo.after Demo.to_failure) = Exited 1) as H
    by (vm_compute; reflexivity).
  split; [exact failure_reachable|]. split; [exact H|].
  exact (exit_1_follows_a_log_line _ _ _ failure_reachable H).
Defined.


Lemma requests_answered_past_setup_witness :
  reachable (CmdLine [] ["app"]) Demo.machine Demo.booted ∧
  past_setup (main_pc Demo.booted) = true ∧
  status_of Demo.booted = Running ∧ server Demo.booted = SrvListening ∧
  ∃ s' r, step (ARequest (Request "POST" "/module" [])) Demo.booted = Some s' ∧
          status_of s' = Running ∧ head (trace s') = Some (EResponse r).
Proof.
  assert (past_setup (main_pc Demo.booted) = true) as H1 by (vm_compute; reflexivity).
  assert (status_of Demo.booted = Running) as H2 by (vm_compute; reflexivity).
  assert (server Demo.booted = SrvListening) as H3 by (vm_compute; reflexivity).
  repeat (split; [first [exact booted_reachable | assumption]|]).
  exact (requests_answered_past_setup _ _ _ _ booted_reachable H1 H2 H3).
Defined.

Lemma runs_ignore_file_and_format_witness :
  let c := CmdLine [("file", VString "out"); ("format", VString "png")] ["app"] in
  let s := Demo.trail c Demo.machine
             (Demo.boot ++ [ARequest (Demo.GET "/module" [])])%list in
  reachable c Demo.machine s ∧
  tasks s = [Task "./static/data/go-callvis_export" "dot" OdProcessListArgs].
Proof.
  intros c s.
  assert (reachable c Demo.machine s) as H
    by (exists (Demo.boot ++ [ARequest (Demo.GET "/module" [])])%list;
        vm_compute; reflexivity).
  split; [exact H|].
  pose proof (runs_ignore_file_and_format _ _ _ H) as Hall.
  vm_compute. reflexivity.
Defined.

Lemma listen_failure_is_silent_witness :
  let s := Demo.trail (CmdLine [] ["app"]) Demo.machine_port_taken [AMain] in
  status_of s = Running ∧ server s = SrvStarting ∧ main_pc s ≠ MGoServer ∧
  Listen ":8000" (wld s) = false ∧
  ∃ s1, step AServer s = Some s1 ∧ status_of s1 = Running ∧ trace s1 = [].
Proof.
  intros s.
  assert (status_of s = Running) as H1 by (vm_compute; reflexivity).
  assert (server s = SrvStarting) as H2 by (vm_compute; reflexivity).
  assert (main_pc s ≠ MGoServer) as H3 by (vm_compute; discriminate).
  assert (Listen ":8000" (wld s) = false) as H4 by (vm_compute; reflexivity).
  repeat (split; [assumption|]).
  destruct (listen_failure_is_silent s H1 H2 H3 H4) as (s1 & Hs & Hr & Ht & _).
  exists s1. split; [exact Hs|]. split; [exact Hr|]. rewrite Ht.
  vm_compute. reflexivity.
Defined.

Lemma process_ends_after_the_sleep_witness :
  status_of Demo.booted = Running ∧ main_pc Demo.booted = MSleep ∧
  ∃ s1 s2, step AMain Demo.booted = Some s1 ∧ step AMain s1 = Some s2 ∧
    status_of s2 = Exited 0 ∧ server s2 = SrvListening.
Proof.
  assert (status_of Demo.booted = Running) as H1 by (vm_compute; reflexivity).
  assert (main_pc Demo.booted = MSleep) as H2 by (vm_compute; reflexivity).
  repeat (split; [assumption|]).
  destruct (process_ends_after_the_sleep Demo.booted H1 H2)
    as (s1 & s2 & Hs1 & Hs2 & Hst & _ & _ & Hsrv & _).
  exists s1, s2. rewrite Hsrv. repeat apply conj; try assumption.
  vm_compute. reflexivity.
Defined.

Lemma other_requests_change_nothing_witness :
  let req := Request "POST" "/module" [("focus", "lib")] in
  let s' := set_trace (EResponse RNotFound :: trace Demo.booted) Demo.booted in
  ¬ (method req = "GET" ∧ (path req = "/options" ∨ path req = "/module")) ∧
  step (ARequest req) Demo.booted = Some s' ∧
  ∃ r, s' = set_trace (EResponse r :: trace Demo.booted) Demo.booted.
Proof.
  intros req s'.
  assert (¬ (method req = "GET" ∧ (path req = "/options" ∨ path req = "/module")))
    as H1 by (intros [? _]; discriminate).
  assert (step (ARequest req) Demo.booted = Some s') as H2
    by (vm_compute; reflexivity).
  repeat (split; [assumption|]).
  exact (other_requests_change_nothing Demo.booted s' req H1 H2).
Defined.

Lemma later_override_reaches_the_run_witness :
  let pkgs := [("app", "main"); ("app/lib", "lib")] in
  let a := Demo.AnalysisT (Demo.RenderOpts "main" "pkg" "" "" "" true true) pkgs in
  let a2 := Demo.AnalysisT (Demo.RenderOpts "lib" "pkg" "" "" "" true true) pkgs in
  let output := String.list_byte_of_string
    "digraph gocallvis { /* focus=lib&group=pkg&limit=&ignore=&include=&nostd=true&nointer=true&rankdir=LR */ }" in
  let trigger := Demo.GET "/module" [] in
  let exchange := Demo.GET "/options" [("opts", "focus=lib")] in
  status_of Demo.booted = Running ∧ server Demo.booted = SrvListening ∧
  Analysis Demo.booted = Some a ∧
  router trigger = RouteModule ∧ router exchange = RouteOptions ∧
  FormValue exchange "opts" ≠ "" ∧
  ProcessListArgs
    (UpdateOptUnMarshal (FormValue exchange "opts")
       (OverrideByHTTP trigger (OptsSetup (flags Demo.booted) a))) = (a2, None) ∧
  Render (flags Demo.booted) a2 = (a2, inr output) ∧
  ∃ s', run [ARequest trigger; ARequest exchange; ATask 0; ATask 0] Demo.booted
          = Some s' ∧
    Analysis s' = Some a2.
Proof.
  intros pkgs a a2 output trigger exchange.
  assert (status_of Demo.booted = Running) as H1 by (vm_compute; reflexivity).
  assert (server Demo.booted = SrvListening) as H2 by (vm_compute; reflexivity).
  assert (Analysis Demo.booted = Some a) as H3 by (vm_compute; reflexivity).
  assert (router trigger = RouteModule) as H4 by reflexivity.
  assert (router exchange = RouteOptions) as H5 by reflexivity.
  assert (FormValue exchange "opts" ≠ "") as H6 by (vm_compute; discriminate).
  assert (ProcessListArgs
            (UpdateOptUnMarshal (FormValue exchange "opts")
               (OverrideByHTTP trigger (OptsSetup (flags Demo.booted) a)))
          = (a2, None)) as H7 by (vm_compute; reflexivity).
  assert (Render (flags Demo.booted) a2 = (a2, inr output)) as H8
    by (vm_compute; reflexivity).
  repeat (split; [assumption|]).
  destruct (later_override_reaches_the_run Demo.booted trigger exchange a a2 a2
              output H1 H2 H3 H4 H5 H6 H7 H8) as (s' & Hrun & _ & Ha).
  exists s'. split; [|exact Ha].
  replace (length (tasks Demo.booted)) with 0%nat in Hrun
    by (vm_compute; reflexivity).
  exact Hrun.
Defined.

Lemma unnamed_flags_keep_their_value_witness :
  let ss := [("focus", VString "lib"); ("nostd", VBool false)] in
  let fs' := <["nostd" := VBool false]> (<["focus" := VString "lib"]> CommandLine) in
  flag_Parse ss CommandLine = inr fs' ∧ ("rankdir" ∉ ss.*1) ∧
  fs' !! "rankdir" = Some (VString "LR").
Proof.
  intros ss fs'.
  assert (flag_Parse ss CommandLine = inr fs') as H1 by (vm_compute; reflexivity).
  assert ("rankdir" ∉ (ss.*1)) as H2
    by (cbn; rewrite !not_elem_of_cons; repeat split;
        first [discriminate | apply not_elem_of_nil]).
  repeat (split; [assumption|]).
  rewrite (unnamed_flags_keep_their_value ss fs' "rankdir" H1 H2).
  vm_compute. reflexivity.
Defined.

Lemma last_setting_wins_witness :
  let before := [("minlen", VUint 3)] in
  let after := [("nostd", VBool false)] in
  let fs' := <["nostd" := VBool false]>
               (<["minlen" := VUint 5]> (<["minlen" := VUint 3]> CommandLine)) in
  flag_Parse (before ++ ("minlen", VUint 5) :: after) CommandLine = inr fs' ∧
  ("minlen" ∉ after.*1) ∧ minlen fs' = 5%N.
Proof.
  intros before after fs'.
  assert (flag_Parse (before ++ ("minlen", VUint 5) :: after) CommandLine
          = inr fs') as H1 by (vm_compute; reflexivity).
  assert ("minlen" ∉ (after.*1)) as H2
    by (cbn; rewrite !not_elem_of_cons; repeat split;
        first [discriminate | apply not_elem_of_nil]).
  repeat (split; [assumption|]).
  unfold minlen, flagUint.
  rewrite (last_setting_wins before after "minlen" (VUint 5) CommandLine fs' H1 H2).
  reflexivity.
Defined.


Lemma address_without_colon_is_localhost_80_witness :
  Net.IndexByte "example.com" ":"%char = None ∧
  parseHTTPAddr id "example.com" = "http://localhost:80".
Proof.
  assert (Net.IndexByte "example.com" ":"%char = None) as H by reflexivity.
  split; [exact H|].
  exact (address_without_colon_is_localhost_80 id "example.com" H).
Defined.

Lemma parseHTTPAddr_host_port_witness :
  plain "" ∧ plain "7878" ∧ parseHTTPAddr id ":7878" = "http://localhost:7878".
Proof.
  assert (plain "") as H1 by (repeat split).
  assert (plain "7878") as H2 by (repeat split).
  repeat (split; [assumption|]).
  exact (parseHTTPAddr_host_port id "" "7878" H1 H2).
Defined.

Lemma parseHTTPAddr_drops_brackets_witness :
  unbracketed "::1" ∧ plain "7878" ∧
  parseHTTPAddr id "[::1]:7878" = "http://::1:7878".
Proof.
  assert (unbracketed "::1") as H1 by (repeat split).
  assert (plain "7878") as H2 by (repeat split).
  repeat (split; [assumption|]).
  exact (parseHTTPAddr_drops_brackets id "::1" "7878" H1 H2).
Defined.
